(** * PyBOP: the SciPy optimiser adapter

    A shallow embedding of [pybop/optimisers/scipy_minimize.py].

    The class [SciPyMinimize] wraps [scipy.optimize.minimize].  Its three
    methods are embedded as computations in a small state-and-exception
    monad over a Python store:

    - adapter instances live in the store and are addressed by reference,
      as [self] is in Python;
    - the [bounds] mappings handed in by callers live in the store too, so
      that the reference kept by the constructor and the reference passed
      to a run can alias;
    - the backend [scipy.optimize.minimize] is not part of the repository.
      It is a parameter of the development: a function from the arguments
      of one call and the state of the outside world (the backend's own
      state and whatever the cost function closes over) to an outcome and
      a new world.  Every call is appended to a trace, which is what the
      statements about "how often" and "with which arguments" talk about. *)

From Stdlib Require Import Floats.
From stdpp Require Import base option strings list functions gmap.

Module PyBOP.

(** ** Values *)

(** A parameter vector is a Python sequence of floats. *)
Abbreviation vec := (list float).

(** References into the store. *)
Abbreviation loc := nat.

(** A Python exception: its class name and its argument. *)
Record exn := PyExn { exn_class : string; exn_arg : string }.

(** How a call ends: with a value, or with a raised exception. *)
Inductive outcome (A : Type) : Type :=
| Returned (a : A)
| Raised (e : exn).
Arguments Returned {A} a.
Arguments Raised {A} e.

Definition outcome_map {A B} (f : A → B) (r : outcome A) : outcome B :=
  match r with
  | Returned a => Returned (f a)
  | Raised e => Raised e
  end.

(** The fields of SciPy's [OptimizeResult] that matter here.  [fun_] is the
    field [fun]; [success] is false when the backend stopped without
    meeting its convergence criterion. *)
Record OptimizeResult := {
  x : vec;
  fun_ : float;
  success : bool;
  message : string
}.

(** The attributes of a [SciPyMinimize] instance.  [method] can hold [None]
    between the two assignments of the constructor; [bounds] is [None] or a
    reference to the caller's mapping. *)
Record SciPyMinimize := {
  name : string;
  method : option string;
  bounds : option loc
}.

Section Adapter.

(** The cost function is an opaque callable; only the backend calls it. *)
Variable Cost : Type.

(** The world outside the adapter. *)
Variable World : Type.

(** The arguments of one call of [scipy.optimize.minimize].  [call_bounds]
    is [None] when the keyword [bounds] is not passed, and otherwise the
    sequence of pairs the generator expression yields. *)
Record minimize_call := {
  call_fun : Cost;
  call_x0 : vec;
  call_method : option string;
  call_bounds : option (list (float * float))
}.

(** [scipy.optimize.minimize]. *)
Variable scipy_minimize : minimize_call → World → outcome OptimizeResult * World.

(** [BaseOptimiser.__init__], which [pybop/optimisers/base_optimiser.py]
    defines: whatever it does to the fresh instance. *)
Variable BaseOptimiser_init : SciPyMinimize → SciPyMinimize.

(** ** The store and the monad *)

Record pystate := {
  adapters : loc → SciPyMinimize;
  mappings : loc → gmap string vec;
  world : World;
  trace : list minimize_call
}.

Definition M (A : Type) : Type := pystate → outcome A * pystate.

#[export] Instance M_ret : MRet M := λ A a s, (Returned a, s).

#[export] Instance M_bind : MBind M := λ A B f m s,
  match m s with
  | (Returned a, s') => f a s'
  | (Raised e, s') => (Raised e, s')
  end.

Definition raise {A} (e : exn) : M A := λ s, (Raised e, s).

(** [obj[key]] on a mapping in the store. *)
Definition getitem (obj : loc) (key : string) : M vec := λ s,
  match mappings s obj !! key with
  | Some v => (Returned v, s)
  | None => raise (PyExn "KeyError" key) s
  end.

(** [self.method] *)
Definition getattr_method (self : loc) : M (option string) := λ s,
  (Returned (method (adapters s self)), s).

Definition update (self : loc) (f : SciPyMinimize → SciPyMinimize) : M unit := λ s,
  (Returned (),
   {| adapters := <[self := f (adapters s self)]> (adapters s);
      mappings := mappings s; world := world s; trace := trace s |}).

(** [self.name = v], [self.method = v], [self.bounds = v]. *)
Definition setattr_name (self : loc) (v : string) : M unit :=
  update self (λ o, {| name := v; method := method o; bounds := bounds o |}).
Definition setattr_method (self : loc) (v : option string) : M unit :=
  update self (λ o, {| name := name o; method := v; bounds := bounds o |}).
Definition setattr_bounds (self : loc) (v : option loc) : M unit :=
  update self (λ o, {| name := name o; method := method o; bounds := v |}).

(** [super().__init__()] *)
Definition super_init (self : loc) : M unit := update self BaseOptimiser_init.

(** One call of the backend: the world moves as the backend says, and the
    call is recorded. *)
Definition answered (s : pystate) (c : minimize_call) (w : World) : pystate :=
  {| adapters := adapters s; mappings := mappings s; world := w;
     trace := trace s ++ [c] |}.

Definition minimize (f : Cost) (x0 : vec) (meth : option string)
    (bnds : option (list (float * float))) : M OptimizeResult := λ s,
  let c := {| call_fun := f; call_x0 := x0; call_method := meth; call_bounds := bnds |} in
  let '(r, w) := scipy_minimize c (world s) in
  (r, answered s c w).

(** ** The class *)

Definition __init__ (self : loc) (method : option string) (bounds : option loc) : M unit :=
  super_init self;;
  setattr_name self "SciPyMinimize";;
  setattr_method self method;;
  setattr_bounds self bounds;;
  m ← getattr_method self;
  if m is None then setattr_method self (Some "L-BFGS-B") else mret ().

Definition _runoptimise (self : loc) (cost_function : Cost) (x0 : vec)
    (bounds : option loc) : M (vec * float) :=
  output ←
    match bounds with
    | Some b =>
        lower ← getitem b "lower";
        upper ← getitem b "upper";
        let bounds := zip lower upper in
        meth ← getattr_method self;
        minimize cost_function x0 meth (Some bounds)
    | None =>
        meth ← getattr_method self;
        minimize cost_function x0 meth None
    end;
  let x := x output in
  let final_cost := fun_ output in
  mret (x, final_cost).

Definition needs_sensitivities (self : loc) : M bool := mret false.

(** ** Vocabulary of the specification *)

(** The call a run on [self] sends to the backend when its bounds argument
    comes out as [bnds]. *)
Definition sent (s : pystate) (self : loc) (cost_function : Cost) (x0 : vec)
    (bnds : option (list (float * float))) : minimize_call :=
  {| call_fun := cost_function; call_x0 := x0;
     call_method := method (adapters s self); call_bounds := bnds |}.

(** The bounds argument of the backend for the [bounds] of a run. *)
Inductive translates (s : pystate) : option loc → option (list (float * float)) → Prop :=
| translates_None : translates s None None
| translates_Some b lower upper :
    mappings s b !! "lower" = Some lower →
    mappings s b !! "upper" = Some upper →
    translates s (Some b) (Some (zip lower upper)).

(** What can be read off an adapter: its name, its method, and the bounds
    it keeps, followed through the reference to the mapping itself. *)
Definition configuration (s : pystate) (self : loc)
    : string * option string * option (gmap string vec) :=
  let o := adapters s self in
  (name o, method o, mappings s <$> bounds o).

(** The mapping passed as [bounds] has the two keys a run reads. *)
Definition has_keys (s : pystate) (bounds : option loc) : bool :=
  match bounds with
  | Some b =>
      match mappings s b !! "lower", mappings s b !! "upper" with
      | Some _, Some _ => true
      | _, _ => false
      end
  | None => true
  end.

(** The input a validating [run] would refuse: [x0] is empty, or [lower]
    or [upper] differs in length from [x0], or [lower[i] > upper[i]] for
    some [i]. *)
Definition malformed (s : pystate) (x0 : vec) (bounds : option loc) : bool :=
  (length x0 =? 0) ||
  match bounds with
  | Some b =>
      match mappings s b !! "lower", mappings s b !! "upper" with
      | Some lower, Some upper =>
          negb (length lower =? length x0) ||
          negb (length upper =? length x0) ||
          existsb (λ p, PrimFloat.ltb p.2 p.1) (zip lower upper)
      | _, _ => false
      end
  | None => false
  end.

(** The valid input: no bounds, or [lower] and [upper] as long as [x0] with
    [lower[i] <= upper[i]] for all [i]. *)
Definition valid_input (s : pystate) (x0 : vec) (bounds : option loc) : bool :=
  match bounds with
  | Some b =>
      match mappings s b !! "lower", mappings s b !! "upper" with
      | Some lower, Some upper =>
          (length lower =? length x0) &&
          (length upper =? length x0) &&
          forallb (λ p, PrimFloat.leb p.1 p.2) (zip lower upper)
      | _, _ => false
      end
  | None => true
  end.

(** A run that is refused before the backend is reached: it raises
    [InvalidInputError], no call is recorded and the world has not moved
    (so the cost function was not evaluated). *)
Definition rejected_before_backend (s : pystate) (r : outcome (vec * float) * pystate) : Prop :=
  (∃ msg, r.1 = Raised (PyExn "InvalidInputError" msg)) ∧
  trace r.2 = trace s ∧ world r.2 = world s.

(** A well-formed call: no bounds, or one ordered pair for each component
    of [x0]. *)
Definition call_ok (c : minimize_call) : bool :=
  match call_bounds c with
  | Some ps => (length ps =? length (call_x0 c)) && forallb (λ p, PrimFloat.leb p.1 p.2) ps
  | None => true
  end.

End Adapter.

Arguments call_fun {Cost} _.
Arguments call_x0 {Cost} _.
Arguments call_method {Cost} _.
Arguments call_bounds {Cost} _.
Arguments adapters {Cost World} _ _.
Arguments mappings {Cost World} _ _.
Arguments world {Cost World} _.
Arguments trace {Cost World} _.
Arguments __init__ {Cost World} BaseOptimiser_init self method bounds _.
Arguments _runoptimise {Cost World} scipy_minimize self cost_function x0 bounds _.
Arguments needs_sensitivities {Cost World} self _.
Arguments answered {Cost World} s c w.
Arguments sent {Cost World} s self cost_function x0 bnds.
Arguments translates {Cost World} s _ _.
Arguments translates_None {Cost World} s.
Arguments translates_Some {Cost World} s b lower upper _ _.
Arguments configuration {Cost World} s self.
Arguments has_keys {Cost World} s bounds.
Arguments malformed {Cost World} s x0 bounds.
Arguments valid_input {Cost World} s x0 bounds.
Arguments rejected_before_backend {Cost World} s r.
Arguments call_ok {Cost} c.

(** The [i]-th pair of the backend's bounds, in the words of the
    specification: [(bounds["lower"][i], bounds["upper"][i])]. *)
Definition pair_at (lower upper : vec) (i : nat) : option (float * float) :=
  match lower !! i, upper !! i with
  | Some l, Some u => Some (l, u)
  | _, _ => None
  end.

(** ** A small backend to run the adapter against

    It refuses a call whose bounds do not fit [x0] or are out of order with
    a [ValueError], as SciPy's bounded drivers do; otherwise it evaluates
    the cost function once, at [x0], and reports [x0] as a result that has
    not converged.  Its world is the number of cost evaluations so far,
    the instrumentation the specification's tests ask for. *)
Module Probe.

Local Open Scope float_scope.

Definition minimize (c : minimize_call (vec → float)) (evals : nat)
    : outcome OptimizeResult * nat :=
  if call_ok c then
    (Returned {| x := call_x0 c; fun_ := call_fun c (call_x0 c);
                 success := false; message := "no iteration performed" |},
     S evals)
  else (Raised (PyExn "ValueError" "bounds do not fit x0"), evals).

(** [BaseOptimiser.__init__] that does nothing. *)
Definition base_init (o : SciPyMinimize) : SciPyMinimize := o.

(** [cost(x) = (x[0] - 3)^2] *)
Definition cost (v : vec) : float :=
  match v with
  | a :: _ => (a - 3) * (a - 3)
  | [] => 0
  end.

(** A store with three mappings: well formed at 0, out of order at 1, too
    long at 2; every other reference holds an empty mapping. *)
Definition store : pystate (vec → float) nat :=
  {| adapters := λ _, {| name := ""; method := None; bounds := None |};
     mappings := λ l,
       match l with
       | 0%nat => {[ "lower" := [0.0]; "upper" := [2.0] ]}
       | 1%nat => {[ "lower" := [2.0]; "upper" := [0.5] ]}
       | 2%nat => {[ "lower" := [0.0; 1.0]; "upper" := [2.0; 3.0] ]}
       | _ => ∅
       end;
     world := 0%nat;
     trace := [] |}.

(** The same store after an adapter has been constructed at reference 7
    with the default method and no bounds. *)
Definition ready : pystate (vec → float) nat :=
  (__init__ base_init 7%nat None None store).2.

(** A start vector, and a run of that adapter on the cost above. *)
Definition x0 : vec := [0.0].

Definition run (bounds : option loc) : M (vec → float) nat (vec * float) :=
  _runoptimise minimize 7%nat cost x0 bounds.

(** The method names [scipy.optimize.minimize] knows. *)
Definition known_methods : list string :=
  ["Nelder-Mead"; "Powell"; "CG"; "BFGS"; "Newton-CG"; "L-BFGS-B"; "TNC";
   "COBYLA"; "SLSQP"; "trust-constr"; "dogleg"; "trust-ncg"; "trust-exact";
   "trust-krylov"].

(** The backend above made to refuse, as SciPy does, a method it does not
    know, before it looks at anything else. *)
Definition minimize_known (c : minimize_call (vec → float)) (evals : nat)
    : outcome OptimizeResult * nat :=
  match call_method c with
  | Some m =>
      if existsb (String.eqb m) known_methods then minimize c evals
      else (Raised (PyExn "ValueError" "Unknown solver"), evals)
  | None => minimize c evals
  end.

(** [store] after an adapter has been constructed at reference 7 with a
    method the backend does not know. *)
Definition misnamed : pystate (vec → float) nat :=
  (__init__ base_init 7%nat (Some "Newton-Raphson") None store).2.

(** A second store with the same adapters.  Its mapping at 0 is the one of
    [store] with a key more; the one at 4 has no [upper]; the one at 5 has
    sequences of different lengths. *)
Definition odd : pystate (vec → float) nat :=
  {| adapters := adapters ready;
     mappings := λ l,
       match l with
       | 0%nat => {[ "lower" := [0.0]; "upper" := [2.0]; "step" := [0.25] ]}
       | 4%nat => {[ "lower" := [0.0] ]}
       | 5%nat => {[ "lower" := [0.0; 1.0; 2.0]; "upper" := [4.0] ]}
       | _ => ∅
       end;
     world := 0%nat;
     trace := [] |}.

(** [ready] after a second adapter has been constructed, at reference 8,
    with the method spelled out and the mapping at 0 as bounds. *)
Definition twin : pystate (vec → float) nat :=
  (__init__ base_init 8%nat (Some "L-BFGS-B") (Some 0%nat) ready).2.

End Probe.

(** * Properties *)

Section Properties.

Context {Cost World : Type}.
Variable scipy_minimize : minimize_call Cost → World → outcome OptimizeResult * World.
Variable BaseOptimiser_init : SciPyMinimize → SciPyMinimize.

Implicit Types (s : pystate Cost World) (self : loc) (cost : Cost).
Implicit Types (bounds : option loc) (c : minimize_call Cost).

Ltac store_simpl := cbn [adapters mappings world trace fst snd].

Ltac unfold_run :=
  unfold _runoptimise, mbind, M_bind, getitem, getattr_method, minimize,
    raise, mret, M_ret, sent; simpl.

(** ** How a run unfolds *)

(** With its bounds argument translated, a run is one call of the backend
    followed by the projection of the two fields. *)
Lemma run_translated s self cost (x0 : vec) bounds bnds :
  translates s bounds bnds →
  _runoptimise scipy_minimize self cost x0 bounds s =
    let c := sent s self cost x0 bnds in
    let a := scipy_minimize c (world s) in
    (outcome_map (λ o, (x o, fun_ o)) a.1, answered s c a.2).
Proof.
  intros [|b lower upper Hl Hu]; unfold_run.
  - destruct (scipy_minimize _ _) as [[o|e] w]; reflexivity.
  - rewrite Hl, Hu.
    destruct (scipy_minimize _ _) as [[o|e] w]; reflexivity.
Qed.

(** A mapping without one of the two keys stops the run with [KeyError]
    where it stands. *)
Lemma run_missing_key s self cost (x0 : vec) bounds :
  has_keys s bounds = false →
  ∃ key, _runoptimise scipy_minimize self cost x0 bounds s =
           (Raised (PyExn "KeyError" key), s).
Proof.
  destruct bounds as [b|]; simpl; [|discriminate].
  intros H. unfold_run.
  destruct (mappings s b !! "lower") as [lower|]; [|eauto].
  destruct (mappings s b !! "upper") as [upper|]; [discriminate|eauto].
Qed.

Lemma has_keys_translates s bounds :
  has_keys s bounds = true → ∃ bnds, translates s bounds bnds.
Proof.
  destruct bounds as [b|]; simpl; [|eauto using translates_None].
  destruct (mappings s b !! "lower") as [lower|] eqn:Hl; [|discriminate].
  destruct (mappings s b !! "upper") as [upper|] eqn:Hu; [|discriminate].
  eauto using translates_Some.
Qed.

(** Whatever happens, a run writes neither adapters nor mappings. *)
Lemma run_frame s self cost (x0 : vec) bounds :
  adapters (_runoptimise scipy_minimize self cost x0 bounds s).2 = adapters s ∧
  mappings (_runoptimise scipy_minimize self cost x0 bounds s).2 = mappings s.
Proof.
  destruct (has_keys s bounds) eqn:Hk.
  - destruct (has_keys_translates _ _ Hk) as [bnds Ht].
    rewrite (run_translated _ _ _ _ _ _ Ht). done.
  - destruct (run_missing_key s self cost x0 bounds Hk) as [key ->]. done.
Qed.

(** A run reads the store through the method of [self], the mappings, the
    world and the trace, and through nothing else. *)
Lemma run_reads s1 s2 self cost (x0 : vec) bounds :
  method (adapters s1 self) = method (adapters s2 self) →
  mappings s1 = mappings s2 →
  world s1 = world s2 →
  trace s1 = trace s2 →
  let r1 := _runoptimise scipy_minimize self cost x0 bounds s1 in
  let r2 := _runoptimise scipy_minimize self cost x0 bounds s2 in
  r1.1 = r2.1 ∧ world r1.2 = world r2.2 ∧ trace r1.2 = trace r2.2.
Proof.
  destruct s1 as [a1 d w t], s2 as [a2 d2 w2 t2]; simpl.
  intros Hm <- <- <-. unfold_run.
  destruct bounds as [b|]; store_simpl;
    [destruct (d b !! "lower") as [lower|]; store_simpl;
      [destruct (d b !! "upper") as [upper|]; store_simpl|]|];
    rewrite ?Hm; try destruct (scipy_minimize _ _) as [[o|e] w']; done.
Qed.

(** ** The constructor *)

Ltac unfold_construct :=
  unfold __init__, mbind, M_bind, super_init, setattr_name, setattr_method,
    setattr_bounds, getattr_method, update, mret, M_ret; simpl;
  rewrite ?fn_lookup_insert; simpl.

Lemma construct_method s self (m : option string) (b : option loc) :
  method (adapters (__init__ BaseOptimiser_init self m b s).2 self) =
    Some (match m with Some given => given | None => "L-BFGS-B" end).
Proof.
  unfold_construct. destruct m as [given|]; simpl; by rewrite fn_lookup_insert.
Qed.

Lemma construct_frame s self (m : option string) (b : option loc) :
  mappings (__init__ BaseOptimiser_init self m b s).2 = mappings s ∧
  world (__init__ BaseOptimiser_init self m b s).2 = world s ∧
  trace (__init__ BaseOptimiser_init self m b s).2 = trace s.
Proof. unfold_construct. by destruct m. Qed.

(** ** The claims *)

(** C3. A construction without a method ([method] omitted or [None])
    selects ["L-BFGS-B"]; a method that is supplied is kept as it is,
    whatever the base constructor did to the instance before. *)
Theorem default_method_is_LBFGSB s self (m : option string) (b : option loc) :
  (__init__ BaseOptimiser_init self m b s).1 = Returned () ∧
  method (adapters (__init__ BaseOptimiser_init self m b s).2 self) =
    Some (match m with Some given => given | None => "L-BFGS-B" end).
Proof.
  split; [|apply construct_method].
  unfold_construct. by destruct m.
Qed.

(** C4. [needs_sensitivities] returns [False] in every state and leaves
    the state as it found it; after a construction with any arguments the
    answer is the same. *)
Theorem needs_sensitivities_is_False s self (m : option string) (b : option loc) :
  needs_sensitivities self s = (Returned false, s) ∧
  needs_sensitivities self (__init__ BaseOptimiser_init self m b s).2 =
    (Returned false, (__init__ BaseOptimiser_init self m b s).2).
Proof. split; reflexivity. Qed.

(** C7. A run leaves every mapping of the store, the caller's [bounds]
    with its [lower] and [upper] among them, as it was: whether the
    backend returns or raises, and whether or not the keys are there. *)
Theorem bounds_not_mutated s self cost (x0 : vec) bounds :
  mappings (_runoptimise scipy_minimize self cost x0 bounds s).2 = mappings s.
Proof. apply run_frame. Qed.

(** C9. Neither a run nor [needs_sensitivities] writes an attribute of
    any adapter: the adapters of the store are the same before and after,
    and so is the configuration read off any of them, the one that ran
    included. *)
Theorem configuration_immutable s self cost (x0 : vec) bounds :
  let r := _runoptimise scipy_minimize self cost x0 bounds s in
  let q := needs_sensitivities self s in
  adapters r.2 = adapters s ∧
  adapters q.2 = adapters s ∧
  ∀ other, configuration r.2 other = configuration s other ∧
           configuration q.2 other = configuration s other.
Proof.
  intros r q. unfold r, configuration.
  destruct (run_frame s self cost x0 bounds) as [-> ->]. done.
Qed.

(** C10. Two constructions that differ only in the bounds given to the
    constructor lead to runs with the same outcome, the same world and the
    same calls of the backend. *)
Theorem constructor_bounds_unused s self (m : option string) (b1 b2 : option loc)
    cost (x0 : vec) bounds :
  let s1 := (__init__ BaseOptimiser_init self m b1 s).2 in
  let s2 := (__init__ BaseOptimiser_init self m b2 s).2 in
  let r1 := _runoptimise scipy_minimize self cost x0 bounds s1 in
  let r2 := _runoptimise scipy_minimize self cost x0 bounds s2 in
  r1.1 = r2.1 ∧
  world r1.2 = world r2.2 ∧
  trace r1.2 = trace r2.2 ∧
  mappings r1.2 = mappings r2.2.
Proof.
  intros s1 s2 r1 r2. unfold r1, r2.
  destruct (construct_frame s self m b1) as (Hd1 & Hw1 & Ht1).
  destruct (construct_frame s self m b2) as (Hd2 & Hw2 & Ht2).
  assert (Hd : mappings s1 = mappings s2) by (unfold s1, s2; congruence).
  destruct (run_reads s1 s2 self cost x0 bounds) as (Ho & Hw & Ht).
  - unfold s1, s2. by rewrite !construct_method.
  - exact Hd.
  - unfold s1, s2. congruence.
  - unfold s1, s2. congruence.
  - repeat split; try done.
    destruct (run_frame s1 self cost x0 bounds) as [_ ->].
    destruct (run_frame s2 self cost x0 bounds) as [_ ->]. exact Hd.
Qed.

(** C1, as the code has it.  A run checks nothing: an input with an empty
    [x0], with [lower] or [upper] of another length than [x0], or with
    [lower[i] > upper[i]] is forwarded like any other.  The backend is
    called once, with [x0] as given and the zip of [lower] and [upper];
    the run ends as that call ends, so an exception can only be the
    backend's own. *)
Theorem malformed_input_is_forwarded s self cost (x0 : vec) bounds :
  malformed s x0 bounds = true →
  has_keys s bounds = true →
  ∃ bnds, translates s bounds bnds ∧
    let r := _runoptimise scipy_minimize self cost x0 bounds s in
    let c := sent s self cost x0 bnds in
    let a := scipy_minimize c (world s) in
    trace r.2 = trace s ++ [c] ∧
    r.1 = outcome_map (λ o, (x o, fun_ o)) a.1 ∧
    world r.2 = a.2.
Proof.
  intros _ Hk. destruct (has_keys_translates _ _ Hk) as [bnds Ht].
  exists bnds. split; [exact Ht|]. cbv zeta.
  rewrite (run_translated _ _ _ _ _ _ Ht). done.
Qed.

(** C2. The bounds a run passes to the backend are, position by position,
    the pairs [(bounds["lower"][i], bounds["upper"][i])]; without bounds
    the backend is called without the keyword. *)
Theorem bounds_translated_in_order s self cost (x0 : vec) bounds :
  has_keys s bounds = true →
  let r := _runoptimise scipy_minimize self cost x0 bounds s in
  ∃ c, trace r.2 = trace s ++ [c] ∧
    match bounds with
    | Some b =>
        ∃ lower upper pairs,
          mappings s b !! "lower" = Some lower ∧
          mappings s b !! "upper" = Some upper ∧
          call_bounds c = Some pairs ∧
          ∀ i, pairs !! i = pair_at lower upper i
    | None => call_bounds c = None
    end.
Proof.
  intros Hk r. unfold r. destruct (has_keys_translates _ _ Hk) as [bnds Ht].
  exists (sent s self cost x0 bnds).
  rewrite (run_translated _ _ _ _ _ _ Ht).
  split; [done|].
  destruct Ht as [|b lower upper Hl Hu]; [done|].
  exists lower, upper, (zip lower upper). repeat split; try done.
  intros i. unfold pair_at. rewrite lookup_zip_with.
  destruct (lower !! i); [|done]. by destruct (upper !! i).
Qed.

(** C5. A result a run returns is the pair of the fields [x] and [fun] of
    the result the backend returned to the one call of that run. *)
Theorem result_is_backend_pair s self cost (x0 : vec) bounds (r : vec * float) :
  let run := _runoptimise scipy_minimize self cost x0 bounds s in
  run.1 = Returned r →
  ∃ c o,
    trace run.2 = trace s ++ [c] ∧
    (scipy_minimize c (world s)).1 = Returned o ∧
    r = (x o, fun_ o).
Proof.
  cbv zeta. destruct (has_keys s bounds) eqn:Hk.
  - destruct (has_keys_translates _ _ Hk) as [bnds Ht].
    rewrite (run_translated _ _ _ _ _ _ Ht). simpl.
    intros Hr. exists (sent s self cost x0 bnds).
    destruct (scipy_minimize _ _).1 as [o|e]; [|discriminate].
    exists o. by inversion Hr.
  - destruct (run_missing_key s self cost x0 bounds Hk) as [key ->].
    discriminate.
Qed.

(** C6. A run calls the backend once, however that call ends.  If the
    backend raises, the run raises the same; if the backend returns, the
    run returns the pair of [x] and [fun], also when [success] is false. *)
Theorem backend_called_once s self cost (x0 : vec) bounds :
  has_keys s bounds = true →
  let r := _runoptimise scipy_minimize self cost x0 bounds s in
  ∃ c, trace r.2 = trace s ++ [c] ∧
    (∀ e, (scipy_minimize c (world s)).1 = Raised e → r.1 = Raised e) ∧
    (∀ o, (scipy_minimize c (world s)).1 = Returned o →
          r.1 = Returned (x o, fun_ o)).
Proof.
  intros Hk r. unfold r. destruct (has_keys_translates _ _ Hk) as [bnds Ht].
  exists (sent s self cost x0 bnds).
  rewrite (run_translated _ _ _ _ _ _ Ht). simpl.
  repeat split; intros ? ->; reflexivity.
Qed.

(** Valid input becomes a call the backend accepts. *)
Lemma valid_input_call_ok s self cost (x0 : vec) bounds :
  valid_input s x0 bounds = true →
  ∃ bnds, translates s bounds bnds ∧ call_ok (sent s self cost x0 bnds) = true.
Proof.
  destruct bounds as [b|]; simpl; [|eauto using translates_None].
  destruct (mappings s b !! "lower") as [lower|] eqn:Hl; [|discriminate].
  destruct (mappings s b !! "upper") as [upper|] eqn:Hu; [|discriminate].
  intros [[Hll Hlu]%andb_prop Hord]%andb_prop.
  apply Nat.eqb_eq in Hll, Hlu.
  exists (Some (zip lower upper)). split; [by constructor|].
  unfold call_ok. simpl. rewrite Hord, andb_true_r.
  apply Nat.eqb_eq. rewrite length_zip_with. lia.
Qed.


End Properties.

(** ** The claims on the probe *)

(** C1 as the specification states it fails: with [lower = [2.0]] above
    [upper = [0.5]] the run reaches the backend, which is the one to
    refuse the bounds, with an exception of its own. *)
Lemma inverted_bounds_reach_backend :
  malformed Probe.ready Probe.x0 (Some 1) = true ∧
  trace (Probe.run (Some 1) Probe.ready).2 =
    [ {| call_fun := Probe.cost; call_x0 := Probe.x0;
         call_method := Some "L-BFGS-B";
         call_bounds := Some [(2.0%float, 0.5%float)] |} ] ∧
  (Probe.run (Some 1) Probe.ready).1 =
    Raised (PyExn "ValueError" "bounds do not fit x0") ∧
  ¬ rejected_before_backend Probe.ready (Probe.run (Some 1) Probe.ready).
Proof.
  repeat split; try reflexivity.
  intros (_ & Htrace & _). vm_compute in Htrace. discriminate.
Qed.

Lemma malformed_input_is_forwarded_witness :
  malformed Probe.ready Probe.x0 (Some 1) = true ∧
  has_keys Probe.ready (Some 1) = true ∧
  ∃ bnds, translates Probe.ready (Some 1) bnds ∧
    let r := Probe.run (Some 1) Probe.ready in
    let c := sent Probe.ready 7 Probe.cost Probe.x0 bnds in
    let a := Probe.minimize c (world Probe.ready) in
    trace r.2 = trace Probe.ready ++ [c] ∧
    r.1 = outcome_map (λ o, (x o, fun_ o)) a.1 ∧
    world r.2 = a.2.
Proof.
  split; [reflexivity|]. split; [reflexivity|].
  apply (malformed_input_is_forwarded Probe.minimize Probe.ready 7 Probe.cost
           Probe.x0 (Some 1)); reflexivity.
Defined.

Lemma bounds_translated_in_order_witness :
  has_keys Probe.ready (Some 0) = true ∧
  ∃ c, trace (Probe.run (Some 0) Probe.ready).2 = trace Probe.ready ++ [c] ∧
    ∃ lower upper pairs,
      mappings Probe.ready 0 !! "lower" = Some lower ∧
      mappings Probe.ready 0 !! "upper" = Some upper ∧
      call_bounds c = Some pairs ∧
      ∀ i, pairs !! i = pair_at lower upper i.
Proof.
  split; [reflexivity|].
  apply (bounds_translated_in_order Probe.minimize Probe.ready 7 Probe.cost
           Probe.x0 (Some 0)); reflexivity.
Defined.

Lemma result_is_backend_pair_witness :
  (Probe.run None Probe.ready).1 = Returned ([0.0%float], 9.0%float) ∧
  ∃ c o,
    trace (Probe.run None Probe.ready).2 = trace Probe.ready ++ [c] ∧
    (Probe.minimize c (world Probe.ready)).1 = Returned o ∧
    ([0.0%float], 9.0%float) = (x o, fun_ o).
Proof.
  split; [reflexivity|].
  apply (result_is_backend_pair Probe.minimize Probe.ready 7 Probe.cost
           Probe.x0 None); reflexivity.
Defined.

Lemma backend_called_once_witness :
  has_keys Probe.ready (Some 0) = true ∧
  ∃ c, trace (Probe.run (Some 0) Probe.ready).2 = trace Probe.ready ++ [c] ∧
    (∀ e, (Probe.minimize c (world Probe.ready)).1 = Raised e →
          (Probe.run (Some 0) Probe.ready).1 = Raised e) ∧
    (∀ o, (Probe.minimize c (world Probe.ready)).1 = Returned o →
          (Probe.run (Some 0) Probe.ready).1 = Returned (x o, fun_ o)).
Proof.
  split; [reflexivity|].
  apply (backend_called_once Probe.minimize Probe.ready 7 Probe.cost
           Probe.x0 (Some 0)); reflexivity.
Defined.



(** * Further properties of the class *)

Section Further.

Context {Cost World : Type}.
Variable scipy_minimize : minimize_call Cost → World → outcome OptimizeResult * World.
Variable BaseOptimiser_init : SciPyMinimize → SciPyMinimize.

Implicit Types (s : pystate Cost World) (self : loc) (cost : Cost).
Implicit Types (bounds : option loc) (c : minimize_call Cost).

Ltac run_steps :=
  unfold _runoptimise, mbind, M_bind, getitem, getattr_method, minimize,
    raise, mret, M_ret;
  cbn [adapters mappings world trace fst snd].

Ltac init_steps :=
  unfold __init__, mbind, M_bind, super_init, setattr_name, setattr_method,
    setattr_bounds, getattr_method, update, mret, M_ret;
  cbn [adapters mappings world trace fst snd].

(** ** Zipping two sequences *)

Lemma zip_fst_take {A B} (l : list A) (k : list B) :
  (zip l k).*1 = take (length k) l.
Proof.
  revert k. induction l as [|a l IH]; intros [|b k]; simpl; try done.
  by rewrite IH.
Qed.

Lemma zip_snd_take {A B} (l : list A) (k : list B) :
  (zip l k).*2 = take (length l) k.
Proof.
  revert k. induction l as [|a l IH]; intros [|b k]; simpl; try done.
  by rewrite IH.
Qed.

(** A run does not change what its bounds translate to. *)
Lemma translates_after_run s self cost (x0 : vec) bounds bnds :
  translates s bounds bnds →
  translates (_runoptimise scipy_minimize self cost x0 bounds s).2 bounds bnds.
Proof.
  intros Ht.
  destruct (run_frame scipy_minimize s self cost x0 bounds) as [_ Hd].
  destruct Ht as [|b lower upper Hl Hu]; constructor; by rewrite Hd.
Qed.

(** The instance a construction leaves at [self]. *)
Lemma construct_instance s self (m : option string) (b : option loc) :
  adapters (__init__ BaseOptimiser_init self m b s).2 self =
    {| name := "SciPyMinimize";
       method := Some (match m with Some given => given | None => "L-BFGS-B" end);
       bounds := b |}.
Proof.
  init_steps. simpl. rewrite ?fn_lookup_insert. simpl.
  destruct m as [given|]; simpl; by rewrite ?fn_lookup_insert.
Qed.

(** ** Missing keys *)

(** X1. A mapping without [lower] stops the run with [KeyError('lower')],
    whether or not [upper] is there: the backend is not called and the
    store is left as it was. *)
Theorem missing_lower_raises_KeyError s self cost (x0 : vec) (b : loc) :
  mappings s b !! "lower" = None →
  _runoptimise scipy_minimize self cost x0 (Some b) s =
    (Raised (PyExn "KeyError" "lower"), s).
Proof. intros H. run_steps. by rewrite H. Qed.

(** X2. A mapping with [lower] but without [upper] stops the run with
    [KeyError('upper')], again before the backend is called. *)
Theorem missing_upper_raises_KeyError s self cost (x0 : vec) (b : loc) (lower : vec) :
  mappings s b !! "lower" = Some lower →
  mappings s b !! "upper" = None →
  _runoptimise scipy_minimize self cost x0 (Some b) s =
    (Raised (PyExn "KeyError" "upper"), s).
Proof. intros Hl Hu. run_steps. rewrite Hl. run_steps. by rewrite Hu. Qed.

(** X11. A run raises in two ways only: [KeyError] for a missing key,
    with no call made and the store untouched, or the exception the
    backend raised to the one call. *)
Theorem raised_is_KeyError_or_backend s self cost (x0 : vec) bounds (e : exn) :
  let r := _runoptimise scipy_minimize self cost x0 bounds s in
  r.1 = Raised e →
  (∃ b key, bounds = Some b ∧ (key = "lower" ∨ key = "upper") ∧
            mappings s b !! key = None ∧ e = PyExn "KeyError" key ∧ r.2 = s) ∨
  (∃ c, trace r.2 = trace s ++ [c] ∧ (scipy_minimize c (world s)).1 = Raised e).
Proof.
  intros r. unfold r. clear r.
  destruct (has_keys s bounds) eqn:Hk.
  - destruct (has_keys_translates _ _ Hk) as [bnds Ht].
    rewrite (run_translated scipy_minimize _ _ _ _ _ _ Ht). simpl.
    intros He. right. exists (sent s self cost x0 bnds). split; [done|].
    destruct (scipy_minimize _ _).1 as [o|e']; [discriminate|].
    by inversion He.
  - destruct bounds as [b|]; [|discriminate]. simpl in Hk.
    destruct (mappings s b !! "lower") as [lower|] eqn:Hl.
    + destruct (mappings s b !! "upper") as [upper|] eqn:Hu; [discriminate|].
      run_steps. rewrite Hl. run_steps. rewrite Hu.
      intros [= <-]. left. exists b, "upper". eauto 10.
    + run_steps. rewrite Hl.
      intros [= <-]. left. exists b, "lower". eauto 10.
Qed.

(** ** Sequences of different lengths *)

(** X3. The pairs the backend receives are cut to the shorter of [lower]
    and [upper]: their first components are the first [len(upper)] entries
    of [lower], their second components the first [len(lower)] entries of
    [upper].  What is beyond is dropped without an error, and the length
    of [x0] plays no part. *)
Theorem unequal_bounds_are_cut s self cost (x0 : vec) (b : loc) (lower upper : vec) :
  mappings s b !! "lower" = Some lower →
  mappings s b !! "upper" = Some upper →
  let r := _runoptimise scipy_minimize self cost x0 (Some b) s in
  ∃ c pairs,
    trace r.2 = trace s ++ [c] ∧
    call_bounds c = Some pairs ∧
    pairs.*1 = take (length upper) lower ∧
    pairs.*2 = take (length lower) upper ∧
    length pairs = length lower `min` length upper.
Proof.
  intros Hl Hu r. unfold r.
  rewrite (run_translated scipy_minimize _ _ _ _ _ _ (translates_Some s b _ _ Hl Hu)).
  exists (sent s self cost x0 (Some (zip lower upper))), (zip lower upper).
  repeat split.
  - apply zip_fst_take.
  - apply zip_snd_take.
  - apply length_zip_with.
Qed.

(** X4. With [lower] and [upper] of one length nothing is lost: the pairs
    the backend receives unzip to [lower] and [upper] again. *)
Theorem equal_bounds_are_recovered s self cost (x0 : vec) (b : loc) (lower upper : vec) :
  mappings s b !! "lower" = Some lower →
  mappings s b !! "upper" = Some upper →
  length lower = length upper →
  let r := _runoptimise scipy_minimize self cost x0 (Some b) s in
  ∃ c pairs,
    trace r.2 = trace s ++ [c] ∧
    call_bounds c = Some pairs ∧
    pairs.*1 = lower ∧ pairs.*2 = upper.
Proof.
  intros Hl Hu Hlen r. unfold r.
  rewrite (run_translated scipy_minimize _ _ _ _ _ _ (translates_Some s b _ _ Hl Hu)).
  exists (sent s self cost x0 (Some (zip lower upper))), (zip lower upper).
  repeat split.
  - apply fst_zip. lia.
  - apply snd_zip. lia.
Qed.

(** X10. Of a mapping a run reads the keys [lower] and [upper] and no
    other: two stores whose mappings agree on these two keys (and that
    agree on the method, the world and the trace) give the same outcome,
    the same world and the same calls. *)
Theorem only_lower_and_upper_are_read s1 s2 self cost (x0 : vec) (b : loc) :
  method (adapters s1 self) = method (adapters s2 self) →
  world s1 = world s2 →
  trace s1 = trace s2 →
  mappings s1 b !! "lower" = mappings s2 b !! "lower" →
  mappings s1 b !! "upper" = mappings s2 b !! "upper" →
  let r1 := _runoptimise scipy_minimize self cost x0 (Some b) s1 in
  let r2 := _runoptimise scipy_minimize self cost x0 (Some b) s2 in
  r1.1 = r2.1 ∧ world r1.2 = world r2.2 ∧ trace r1.2 = trace r2.2.
Proof.
  destruct s1 as [a1 d1 w t], s2 as [a2 d2 w2 t2].
  cbn [adapters mappings world trace].
  intros Hm <- <- Hl Hu.
  run_steps. rewrite <- Hl.
  destruct (d1 b !! "lower") as [lower|]; run_steps; [|done].
  rewrite <- Hu.
  destruct (d1 b !! "upper") as [upper|]; run_steps; [|done].
  rewrite <- Hm.
  by destruct (scipy_minimize _ _) as [[o|e] w'].
Qed.

(** ** The constructor *)

(** X5. A construction fixes all three attributes of the instance: the
    name is ["SciPyMinimize"], the method is the given one or
    ["L-BFGS-B"], and [bounds] is the reference that was passed, not a
    copy of the mapping.  Nothing the base constructor did to these
    attributes survives. *)
Theorem constructed_instance s self (m : option string) (b : option loc) :
  adapters (__init__ BaseOptimiser_init self m b s).2 self =
    {| name := "SciPyMinimize";
       method := Some (match m with Some given => given | None => "L-BFGS-B" end);
       bounds := b |}.
Proof. apply construct_instance. Qed.

(** X6. A construction writes the instance it is called on and nothing
    else: every other adapter, the mappings, the world and the trace are
    as before, so no backend call is made. *)
Theorem construction_writes_one_instance s self (m : option string) (b : option loc)
    (other : loc) :
  other ≠ self →
  let s' := (__init__ BaseOptimiser_init self m b s).2 in
  adapters s' other = adapters s other ∧
  mappings s' = mappings s ∧ world s' = world s ∧ trace s' = trace s.
Proof.
  intros Hne s'. unfold s'. clear s'.
  split; [|apply construct_frame].
  init_steps. simpl. rewrite ?fn_lookup_insert. simpl.
  destruct m as [given|]; simpl; by rewrite !fn_lookup_insert_ne.
Qed.

(** ** Construction and runs together *)

(** X7. The call a freshly constructed adapter makes: the cost function
    and [x0] as given to the run, the method chosen at construction, and
    the bounds of the run.  The bounds given to the constructor do not
    appear in it, also when the run has none. *)
Theorem constructed_adapter_call s self (m : option string) (b : option loc)
    cost (x0 : vec) bounds :
  has_keys s bounds = true →
  let s1 := (__init__ BaseOptimiser_init self m b s).2 in
  let r := _runoptimise scipy_minimize self cost x0 bounds s1 in
  ∃ bnds, translates s bounds bnds ∧
    trace r.2 = trace s ++
      [ {| call_fun := cost; call_x0 := x0;
           call_method := Some (match m with Some given => given | None => "L-BFGS-B" end);
           call_bounds := bnds |} ].
Proof.
  intros Hk s1 r.
  destruct (has_keys_translates _ _ Hk) as [bnds Ht].
  destruct (construct_frame BaseOptimiser_init s self m b) as (Hd & Hw & Htr).
  assert (Ht1 : translates s1 bounds bnds).
  { destruct Ht as [|b' lower upper Hl Hu]; constructor; unfold s1; by rewrite Hd. }
  exists bnds. split; [exact Ht|].
  unfold r. rewrite (run_translated scipy_minimize _ _ _ _ _ _ Ht1).
  unfold sent, s1. cbn [snd answered trace].
  by rewrite construct_instance, Htr.
Qed.

(** X8. A second run with the same arguments sends the backend the very
    call the first one sent, however the first one ended: nothing a run
    leaves behind changes the next. *)
Theorem repeated_run_repeats_call s self cost (x0 : vec) bounds :
  has_keys s bounds = true →
  let r1 := _runoptimise scipy_minimize self cost x0 bounds s in
  let r2 := _runoptimise scipy_minimize self cost x0 bounds r1.2 in
  ∃ c, trace r1.2 = trace s ++ [c] ∧ trace r2.2 = trace s ++ [c; c].
Proof.
  intros Hk r1 r2.
  destruct (has_keys_translates _ _ Hk) as [bnds Ht].
  pose proof (translates_after_run s self cost x0 bounds bnds Ht) as Ht2.
  exists (sent s self cost x0 bnds).
  unfold r2. rewrite (run_translated scipy_minimize _ _ _ _ _ _ Ht2).
  unfold r1. rewrite (run_translated scipy_minimize _ _ _ _ _ _ Ht).
  cbn [snd fst answered trace sent adapters world].
  split; [done|]. by rewrite <- app_assoc.
Qed.

(** X9. Two adapters with the same method are interchangeable: a run on
    either gives the same result and leaves the same store, whatever
    their names and stored bounds. *)
Theorem same_method_same_run s (self1 self2 : loc) cost (x0 : vec) bounds :
  method (adapters s self1) = method (adapters s self2) →
  _runoptimise scipy_minimize self1 cost x0 bounds s =
  _runoptimise scipy_minimize self2 cost x0 bounds s.
Proof.
  intros Hm. run_steps.
  destruct bounds as [b|]; run_steps; [|by rewrite Hm].
  destruct (mappings s b !! "lower") as [lower|]; run_steps; [|done].
  destruct (mappings s b !! "upper") as [upper|]; run_steps; [|done].
  by rewrite Hm.
Qed.

End Further.

(** ** The further properties on the probe *)

Lemma missing_lower_raises_KeyError_witness :
  mappings Probe.ready 3 !! "lower" = None ∧
  Probe.run (Some 3) Probe.ready = (Raised (PyExn "KeyError" "lower"), Probe.ready).
Proof.
  split; [reflexivity|].
  apply (missing_lower_raises_KeyError Probe.minimize Probe.ready 7 Probe.cost
           Probe.x0 3); reflexivity.
Defined.

Lemma missing_upper_raises_KeyError_witness :
  mappings Probe.odd 4 !! "lower" = Some [0.0%float] ∧
  mappings Probe.odd 4 !! "upper" = None ∧
  Probe.run (Some 4) Probe.odd = (Raised (PyExn "KeyError" "upper"), Probe.odd).
Proof.
  split; [reflexivity|]. split; [reflexivity|].
  apply (missing_upper_raises_KeyError Probe.minimize Probe.odd 7 Probe.cost
           Probe.x0 4 [0.0%float]); reflexivity.
Defined.

Lemma raised_is_KeyError_or_backend_witness :
  let e := PyExn "ValueError" "bounds do not fit x0" in
  let r := Probe.run (Some 1) Probe.ready in
  r.1 = Raised e ∧
  ((∃ b key, Some 1 = Some b ∧ (key = "lower" ∨ key = "upper") ∧
             mappings Probe.ready b !! key = None ∧ e = PyExn "KeyError" key ∧
             r.2 = Probe.ready) ∨
   (∃ c, trace r.2 = trace Probe.ready ++ [c] ∧
         (Probe.minimize c (world Probe.ready)).1 = Raised e)).
Proof.
  split; [reflexivity|].
  apply (raised_is_KeyError_or_backend Probe.minimize Probe.ready 7 Probe.cost
           Probe.x0 (Some 1)); reflexivity.
Defined.

Lemma unequal_bounds_are_cut_witness :
  let lower := [0.0; 1.0; 2.0]%float in
  let upper := [4.0]%float in
  let r := Probe.run (Some 5) Probe.odd in
  mappings Probe.odd 5 !! "lower" = Some lower ∧
  mappings Probe.odd 5 !! "upper" = Some upper ∧
  ∃ c pairs,
    trace r.2 = trace Probe.odd ++ [c] ∧
    call_bounds c = Some pairs ∧
    pairs.*1 = take (length upper) lower ∧
    pairs.*2 = take (length lower) upper ∧
    length pairs = length lower `min` length upper.
Proof.
  split; [reflexivity|]. split; [reflexivity|].
  apply (unequal_bounds_are_cut Probe.minimize Probe.odd 7 Probe.cost Probe.x0 5);
    reflexivity.
Defined.

Lemma equal_bounds_are_recovered_witness :
  let lower := [0.0; 1.0]%float in
  let upper := [2.0; 3.0]%float in
  let r := Probe.run (Some 2) Probe.ready in
  mappings Probe.ready 2 !! "lower" = Some lower ∧
  mappings Probe.ready 2 !! "upper" = Some upper ∧
  length lower = length upper ∧
  ∃ c pairs,
    trace r.2 = trace Probe.ready ++ [c] ∧
    call_bounds c = Some pairs ∧
    pairs.*1 = lower ∧ pairs.*2 = upper.
Proof.
  split; [reflexivity|]. split; [reflexivity|]. split; [reflexivity|].
  apply (equal_bounds_are_recovered Probe.minimize Probe.ready 7 Probe.cost
           Probe.x0 2); reflexivity.
Defined.

Lemma only_lower_and_upper_are_read_witness :
  let r1 := Probe.run (Some 0) Probe.ready in
  let r2 := Probe.run (Some 0) Probe.odd in
  mappings Probe.ready 0 ≠ mappings Probe.odd 0 ∧
  r1.1 = r2.1 ∧ world r1.2 = world r2.2 ∧ trace r1.2 = trace r2.2.
Proof.
  split.
  - intros H. apply (f_equal (λ d, d !! "step")) in H. vm_compute in H. discriminate.
  - apply (only_lower_and_upper_are_read Probe.minimize Probe.ready Probe.odd 7
             Probe.cost Probe.x0 0); reflexivity.
Defined.

Lemma construction_writes_one_instance_witness :
  let s' := (__init__ Probe.base_init 7 None (Some 2) Probe.store).2 in
  8 ≠ 7 ∧
  adapters s' 8 = adapters Probe.store 8 ∧
  mappings s' = mappings Probe.store ∧
  world s' = world Probe.store ∧ trace s' = trace Probe.store.
Proof.
  split; [lia|].
  apply (construction_writes_one_instance Probe.base_init Probe.store 7 None
           (Some 2) 8); lia.
Defined.

Lemma constructed_adapter_call_witness :
  let s1 := (__init__ Probe.base_init 7 None (Some 2) Probe.store).2 in
  let r := _runoptimise Probe.minimize 7 Probe.cost Probe.x0 None s1 in
  has_keys Probe.store None = true ∧
  ∃ bnds, translates Probe.store None bnds ∧
    trace r.2 = trace Probe.store ++
      [ {| call_fun := Probe.cost; call_x0 := Probe.x0;
           call_method := Some "L-BFGS-B"; call_bounds := bnds |} ].
Proof.
  split; [reflexivity|].
  apply (constructed_adapter_call Probe.minimize Probe.base_init Probe.store 7
           None (Some 2) Probe.cost Probe.x0 None); reflexivity.
Defined.

Lemma repeated_run_repeats_call_witness :
  let r1 := Probe.run (Some 0) Probe.ready in
  let r2 := Probe.run (Some 0) r1.2 in
  has_keys Probe.ready (Some 0) = true ∧
  ∃ c, trace r1.2 = trace Probe.ready ++ [c] ∧
       trace r2.2 = trace Probe.ready ++ [c; c].
Proof.
  split; [reflexivity|].
  apply (repeated_run_repeats_call Probe.minimize Probe.ready 7 Probe.cost
           Probe.x0 (Some 0)); reflexivity.
Defined.

Lemma same_method_same_run_witness :
  method (adapters Probe.twin 7) = method (adapters Probe.twin 8) ∧
  bounds (adapters Probe.twin 7) ≠ bounds (adapters Probe.twin 8) ∧
  _runoptimise Probe.minimize 7 Probe.cost Probe.x0 (Some 0) Probe.twin =
  _runoptimise Probe.minimize 8 Probe.cost Probe.x0 (Some 0) Probe.twin.
Proof.
  split; [reflexivity|]. split; [discriminate|].
  apply (same_method_same_run Probe.minimize Probe.twin 7 8 Probe.cost Probe.x0
           (Some 0)); reflexivity.
Defined.

End PyBOP.
